(** * MotorCasino edge application: the request handler of [src/index.js]

    A shallow embedding of the Fastly Compute handler and of the helpers it
    calls ([fetchFromS3], [getCachedResponse], [cacheResponse],
    [extractRequestInfo], [extractResponseHeaders], [logToBigQuery]),
    followed by the properties of the handler.

    The platform is an environment of oracles ([Env]): what [fetch] answers
    or raises, whether the BigQuery log endpoint raises, the clock.  The
    handler itself is a program in a small state-and-exception monad that
    records every call it makes to a collaborator. *)

From Stdlib Require Import String Ascii List ZArith Lia Bool DecimalString.
Import ListNotations.
Local Open Scope string_scope.
Local Open Scope list_scope.

(** ** JavaScript values *)

Module Js.

(** The values the handler manipulates.  An object is its list of own
    properties in insertion order (the engine enumerates integer-like keys
    first and treats the key [__proto__] specially; neither is modelled,
    and nothing below depends on property order or on such keys). *)
#[warnings="-register-all"]
Inductive Value : Type :=
| Undefined
| Null
| Str (s : string)
| Num (z : Z)
| Object (props : list (string * Value)).

Definition Obj : Type := list (string * Value).

(** ToBoolean: [undefined], [null], the empty string and [0] are falsy. *)
Definition truthy (v : Value) : bool :=
  match v with
  | Undefined => false
  | Null => false
  | Str s => negb (String.eqb s EmptyString)
  | Num z => negb (Z.eqb z 0)
  | Object _ => true
  end.

(** [a || b] *)
Definition or (a b : Value) : Value := if truthy a then a else b.

(** [o.k] *)
Fixpoint get (o : Obj) (k : string) : Value :=
  match o with
  | [] => Undefined
  | (k', v) :: rest => if String.eqb k' k then v else get rest k
  end.

(** [o[k] = v]: an existing property keeps its position. *)
Fixpoint set (o : Obj) (k : string) (v : Value) : Obj :=
  match o with
  | [] => [(k, v)]
  | (k', v') :: rest =>
      if String.eqb k' k then (k', v) :: rest else (k', v') :: set rest k v
  end.

(** [{...target, ...source}]: the properties of [source] are set in order. *)
Definition assign (target source : Obj) : Obj :=
  fold_left (fun o kv => set o (fst kv) (snd kv)) source target.

(** [s.startsWith(p)] *)
Definition startsWith (s p : string) : bool := String.prefix p s.

(** [s.slice(n)] for [0 <= n] *)
Definition slice (s : string) (n : nat) : string :=
  String.substring n (String.length s - n) s.

(** Number-to-string conversion of an integer, as a template literal does. *)
Definition numToString (z : Z) : string :=
  NilZero.string_of_int (Z.to_int z).

Definition lowerAscii (c : ascii) : ascii :=
  let n := nat_of_ascii c in
  if (65 <=? n)%nat && (n <=? 90)%nat then ascii_of_nat (n + 32) else c.

Fixpoint toLowerCase (s : string) : string :=
  match s with
  | EmptyString => EmptyString
  | String c rest => String (lowerAscii c) (toLowerCase rest)
  end.

End Js.

(** ** The Fetch API data the handler touches *)

(** A [Headers] object: one entry per header, names in lower case (the
    platform lower-cases names and joins repeated headers into one entry). *)
Definition Headers : Type := list (string * string).

(** [headers.get(name)]: the value, or [null]. *)
Fixpoint headers_get (hs : Headers) (name : string) : Js.Value :=
  match hs with
  | [] => Js.Null
  | (k, v) :: rest =>
      if String.eqb k (Js.toLowerCase name) then Js.Str v
      else headers_get rest name
  end.

(** [headers.set(name, value)] *)
Fixpoint headers_set (hs : Headers) (name value : string) : Headers :=
  match hs with
  | [] => [(Js.toLowerCase name, value)]
  | (k, v) :: rest =>
      if String.eqb k (Js.toLowerCase name) then (k, value) :: rest
      else (k, v) :: headers_set rest name value
  end.

(** [new URL(request.url)]: the request URL of an inbound [Request] always
    parses, so the parsed components are carried with the request. *)
Record URL : Type := {
  href : string;
  hostname : string;
  pathname : string
}.

(** The inbound [Request]. *)
Record Request : Type := {
  req_url : URL;
  req_method : string;
  req_headers : Headers
}.

Record Response : Type := {
  status : Z;
  resp_headers : Headers;
  body : string
}.

(** [response.ok] *)
Definition ok (r : Response) : bool :=
  (200 <=? status r)%Z && (status r <=? 299)%Z.

(** [response.clone()]: the copy has the same status, headers and body. *)
Definition clone (r : Response) : Response := r.

(** [new Response(text, { status })]: a text body gets the text content type. *)
Definition new_Response (text : string) (st : Z) : Response :=
  {| status := st;
     resp_headers := [("content-type", "text/plain;charset=UTF-8")];
     body := text |}.

(** An outgoing [Request], as the handler builds it for [fetch]. *)
Record FetchRequest : Type := {
  fr_url : string;
  fr_method : string;
  fr_headers : Headers;
  fr_body : option string;
  fr_backend : option string
}.

(** [new Request(url)] *)
Definition new_Request (u : string) : FetchRequest :=
  {| fr_url := u; fr_method := "GET"; fr_headers := [];
     fr_body := None; fr_backend := None |}.

(** [new CacheOverride(mode, { ttl, swr })] *)
Record CacheOverride : Type := {
  co_mode : string;
  co_ttl : option Z;
  co_swr : option Z
}.

(** ** Effects *)

(** A call either returns or throws an error carrying [error.message]. *)
Inductive Result (A : Type) : Type :=
| Ok (a : A)
| Throw (message : string).
Arguments Ok {A} a.
Arguments Throw {A} message.

(** The platform: what each collaborator answers.
    - [fetch] is the global [fetch]; it serves the cache lookup, the cache
      write and the S3 request, and raises on a transport fault;
    - [bigquery_log] is [bigqueryLogger.log], called with the serialised
      record;
    - [clock k] is the time in milliseconds at the [k]-th reading;
    - [toISOString] and [JSON_stringify] are the built-in renderings. *)
Record Env : Type := {
  fetch : FetchRequest -> option CacheOverride -> Result Response;
  bigquery_log : string -> Result unit;
  clock : nat -> Z;
  toISOString : Z -> string;
  JSON_stringify : Js.Value -> string
}.

(** What the handler did, newest event first in [trace].
    [EvBigQuery entry] is the call [bigqueryLogger.log(JSON.stringify(entry))];
    [EvFetch] is a call of [fetch]; both are recorded whether or not the
    call raised.  [EvLog] is a line on the diagnostic logger [logger], which
    every handler of the source falls back to and which does not raise. *)
Inductive Event : Type :=
| EvLog (message : string)
| EvBigQuery (entry : Js.Obj)
| EvFetch (request : FetchRequest) (cacheOverride : option CacheOverride).

(** [var_s3Response] is the binding [let s3Response = null] that the [try]
    and the [catch] block of [handleRequest] share. *)
Record World : Type := {
  ticks : nat;
  var_s3Response : option Response;
  trace : list Event
}.

Definition M (A : Type) : Type := World -> Result A * World.

Definition ret {A} (a : A) : M A := fun w => (Ok a, w).

Definition bind {A B} (m : M A) (k : A -> M B) : M B :=
  fun w =>
    match m w with
    | (Ok a, w') => k a w'
    | (Throw msg, w') => (Throw msg, w')
    end.

(** [try { m } catch (error) { h error.message }] *)
Definition tryCatch {A} (m : M A) (h : string -> M A) : M A :=
  fun w =>
    match m w with
    | (Ok a, w') => (Ok a, w')
    | (Throw msg, w') => h msg w'
    end.

Declare Scope js_scope.
Delimit Scope js_scope with js.
Notation "x <- m ;; k" := (bind m (fun x => k))
  (at level 100, m at next level, right associativity) : js_scope.
Notation "m ;; k" := (bind m (fun _ => k))
  (at level 100, right associativity) : js_scope.

Definition emit (e : Event) (w : World) : World :=
  {| ticks := ticks w;
     var_s3Response := var_s3Response w;
     trace := e :: trace w |}.

Definition tick (w : World) : World :=
  {| ticks := S (ticks w);
     var_s3Response := var_s3Response w;
     trace := trace w |}.

Definition set_s3Response (r : option Response) : M unit :=
  fun w =>
    (Ok tt, {| ticks := ticks w; var_s3Response := r; trace := trace w |}).

Definition get_s3Response : M (option Response) :=
  fun w => (Ok (var_s3Response w), w).

(** ** Configuration constants *)

Definition AWS_ACCESS_KEY_ID : string := "YOUR_AWS_ACCESS_KEY_ID".
Definition AWS_SECRET_ACCESS_KEY : string := "YOUR_AWS_SECRET_ACCESS_KEY".
Definition AWS_REGION : string := "us-east-1".
Definition S3_BUCKET_NAME : string := "your-bucket-name".
Definition CACHE_TTL : Z := 800.

(** ** The handler *)

(** The cache key of [handleRequest]: [`s3-object:${path}`]. *)
Definition cacheKey (path : string) : string := "s3-object:" ++ path.

(** [fetchFromS3]: the object key and the S3 URL. *)
Definition objectKey (path : string) : string :=
  if Js.startsWith path "/" then Js.slice path 1 else path.

Definition s3Url (path : string) : string :=
  "https://" ++ S3_BUCKET_NAME ++ ".s3." ++ AWS_REGION ++ ".amazonaws.com/"
  ++ objectKey path.

(** The request [fetchFromS3] sends. *)
Definition s3Request (path : string) : FetchRequest :=
  let headers := [] in
  let headers :=
    headers_set headers "Host"
      (S3_BUCKET_NAME ++ ".s3." ++ AWS_REGION ++ ".amazonaws.com") in
  let headers :=
    headers_set headers "Authorization"
      ("AWS " ++ AWS_ACCESS_KEY_ID ++ ":" ++ AWS_SECRET_ACCESS_KEY) in
  {| fr_url := s3Url path; fr_method := "GET"; fr_headers := headers;
     fr_body := None; fr_backend := Some "s3_backend" |}.

(** The requests and overrides of the cache lookup and of the cache write. *)
Definition cacheLookupRequest (key : string) : FetchRequest :=
  new_Request ("https://cache/" ++ key).

Definition cacheLookupOverride : CacheOverride :=
  {| co_mode := "miss"; co_ttl := None; co_swr := None |}.

Definition cacheWriteRequest (key : string) (response : Response)
  : FetchRequest :=
  {| fr_url := "https://cache/" ++ key; fr_method := "PUT";
     fr_headers := resp_headers response;
     fr_body := Some (body (clone response));
     fr_backend := None |}.

Definition cacheWriteOverride : CacheOverride :=
  {| co_mode := "override"; co_ttl := Some CACHE_TTL; co_swr := Some 0%Z |}.

(** [extractResponseHeaders] (also the header loop of [extractRequestInfo]):
    [headers[key] = value] for every entry. *)
Definition headersObject (hs : Headers) : Js.Obj :=
  fold_left (fun o kv => Js.set o (fst kv) (Js.Str (snd kv))) hs [].

Definition extractResponseHeaders (response : Response) : Js.Obj :=
  headersObject (resp_headers response).

(** The client address of [extractRequestInfo]; [||] associates to the
    left. *)
Definition clientIP (hs : Headers) : Js.Value :=
  Js.or
    (Js.or
       (Js.or (headers_get hs "fastly-client-ip")
              (headers_get hs "x-forwarded-for"))
       (headers_get hs "x-real-ip"))
    (Js.Str "unknown").

Section Handler.

Variable env : Env.

Local Open Scope js_scope.

(** [Date.now()] *)
Definition Date_now : M Z :=
  fun w => (Ok (clock env (ticks w)), tick w).

(** [logger.log(message)] *)
Definition logger_log (message : string) : M unit :=
  fun w => (Ok tt, emit (EvLog message) w).

(** [bigqueryLogger.log(JSON.stringify(entry))] *)
Definition bigqueryLogger_log (entry : Js.Obj) : M unit :=
  fun w =>
    (bigquery_log env (JSON_stringify env (Js.Object entry)),
     emit (EvBigQuery entry) w).

(** [await fetch(request, { cacheOverride })] *)
Definition js_fetch (request : FetchRequest) (o : option CacheOverride)
  : M Response :=
  fun w => (fetch env request o, emit (EvFetch request o) w).

Definition fetchFromS3 (path : string) : M Response :=
  js_fetch (s3Request path) None.

Definition getCachedResponse (key : string) : M (option Response) :=
  tryCatch
    (cacheResponse <- js_fetch (cacheLookupRequest key)
                        (Some cacheLookupOverride) ;;
     if (status cacheResponse =? 200)%Z then ret (Some cacheResponse)
     else ret None)
    (fun message =>
       logger_log ("Cache read error: " ++ message) ;;
       ret None).

Definition cacheResponse (key : string) (response : Response) : M unit :=
  tryCatch
    (js_fetch (cacheWriteRequest key response) (Some cacheWriteOverride) ;;
     logger_log ("Response cached with key: " ++ key ++ ", TTL: "
                 ++ Js.numToString CACHE_TTL ++ "s"))
    (fun message => logger_log ("Cache write error: " ++ message)).

(** The object [extractRequestInfo] returns, [now] being the time read by
    [new Date()]. *)
Definition requestInfoAt (request : Request) (path : string) (now : Z)
  : Js.Obj :=
  let url := req_url request in
  let headers := headersObject (req_headers request) in
  let ip := clientIP (req_headers request) in
  [ ("timestamp", Js.Str (toISOString env now));
    ("ip", ip);
    ("domain", Js.Str (hostname url));
    ("path", Js.Str path);
    ("method", Js.Str (req_method request));
    ("userAgent",
      Js.or (headers_get (req_headers request) "user-agent")
            (Js.Str "unknown"));
    ("referer",
      Js.or (headers_get (req_headers request) "referer") Js.Null);
    ("requestHeaders", Js.Object headers);
    ("url", Js.Str (href url)) ].

Definition extractRequestInfo (request : Request) (path : string)
  : M Js.Obj :=
  now <- Date_now ;;
  ret (requestInfoAt request path now).

(** The [logEntry] that [logToBigQuery] builds from [logData]. *)
Definition logEntryOf (logData : Js.Obj) : Js.Obj :=
  let logEntry :=
    Js.assign [ ("service", Js.Str "motorcasino-edge-app");
                ("version", Js.Str "1.0.0") ] logData in
  let logEntry :=
    if Js.truthy (Js.get logEntry "requestHeaders")
    then Js.set logEntry "requestHeadersJson"
           (Js.Str (JSON_stringify env (Js.get logEntry "requestHeaders")))
    else logEntry in
  let logEntry :=
    if Js.truthy (Js.get logEntry "s3ResponseHeaders")
    then Js.set logEntry "s3ResponseHeadersJson"
           (Js.Str (JSON_stringify env (Js.get logEntry "s3ResponseHeaders")))
    else logEntry in
  logEntry.

Definition logToBigQuery (logData : Js.Obj) : M unit :=
  tryCatch
    (let logEntry := logEntryOf logData in
     bigqueryLogger_log logEntry ;;
     logger_log ("BigQuery log entry: "
                 ++ JSON_stringify env (Js.Object logEntry)))
    (fun message => logger_log ("BigQuery logging error: " ++ message)).

Definition handleRequest (request : Request) : M Response :=
  startTime <- Date_now ;;
  set_s3Response None ;;
  tryCatch
    (let url := req_url request in
     let path := pathname url in
     requestInfo <- extractRequestInfo request path ;;
     logger_log ("Processing request for path: " ++ path) ;;
     let key := cacheKey path in
     cachedResponse <- getCachedResponse key ;;
     match cachedResponse with
     | Some cached =>
         logger_log ("Cache hit for path: " ++ path) ;;
         now <- Date_now ;;
         logToBigQuery
           (Js.assign requestInfo
              [ ("cacheStatus", Js.Str "HIT");
                ("responseTime", Js.Num (now - startTime));
                ("s3ResponseHeaders", Js.Null);
                ("eventType", Js.Str "cache_hit") ]) ;;
         ret cached
     | None =>
         logger_log ("Cache miss for path: " ++ path
                     ++ ", fetching from S3") ;;
         s3Response <- fetchFromS3 path ;;
         set_s3Response (Some s3Response) ;;
         if negb (ok s3Response) then
           logger_log ("S3 fetch failed for path: " ++ path ++ ", status: "
                       ++ Js.numToString (status s3Response)) ;;
           now <- Date_now ;;
           logToBigQuery
             (Js.assign requestInfo
                [ ("cacheStatus", Js.Str "MISS");
                  ("responseTime", Js.Num (now - startTime));
                  ("s3ResponseHeaders",
                    Js.Object (extractResponseHeaders s3Response));
                  ("error",
                    Js.Str ("S3 fetch failed with status: "
                            ++ Js.numToString (status s3Response)));
                  ("eventType", Js.Str "s3_error") ]) ;;
           ret (new_Response "Not Found" 404)
         else
           let responseToCache := clone s3Response in
           cacheResponse key responseToCache ;;
           logger_log ("Successfully fetched and cached response for path: "
                       ++ path) ;;
           now <- Date_now ;;
           logToBigQuery
             (Js.assign requestInfo
                [ ("cacheStatus", Js.Str "MISS");
                  ("responseTime", Js.Num (now - startTime));
                  ("s3ResponseHeaders",
                    Js.Object (extractResponseHeaders s3Response));
                  ("eventType", Js.Str "success") ]) ;;
           ret s3Response
     end)
    (fun message =>
       logger_log ("Error processing request: " ++ message) ;;
       requestInfo <-
         extractRequestInfo request (pathname (req_url request)) ;;
       now <- Date_now ;;
       s3Response <- get_s3Response ;;
       logToBigQuery
         (Js.assign requestInfo
            [ ("cacheStatus", Js.Str "ERROR");
              ("responseTime", Js.Num (now - startTime));
              ("s3ResponseHeaders",
                match s3Response with
                | Some r => Js.Object (extractResponseHeaders r)
                | None => Js.Null
                end);
              ("error", Js.Str message);
              ("eventType", Js.Str "error") ]) ;;
       ret (new_Response "Internal Server Error" 500)).

End Handler.

(** ** Observing one run of the handler *)

Definition initial_world : World :=
  {| ticks := 0; var_s3Response := None; trace := [] |}.

Definition run (env : Env) (request : Request) : Result Response * World :=
  handleRequest env request initial_world.

(** What the promise of [handleRequest] settles to. *)
Definition response_of (env : Env) (request : Request) : Result Response :=
  fst (run env request).

(** The calls made while handling the request, oldest first. *)
Definition events (env : Env) (request : Request) : list Event :=
  rev (trace (snd (run env request))).

(** The records handed to the BigQuery endpoint. *)
Fixpoint telemetry (evs : list Event) : list Js.Obj :=
  match evs with
  | [] => []
  | EvBigQuery entry :: rest => entry :: telemetry rest
  | _ :: rest => telemetry rest
  end.

(** The calls of [fetch]. *)
Fixpoint fetches (evs : list Event)
  : list (FetchRequest * option CacheOverride) :=
  match evs with
  | [] => []
  | EvFetch q o :: rest => (q, o) :: fetches rest
  | _ :: rest => fetches rest
  end.

(** The cache writes: the [PUT] requests among the calls of [fetch]. *)
Definition cacheWrites (evs : list Event)
  : list (FetchRequest * option CacheOverride) :=
  filter (fun qo => String.eqb (fr_method (fst qo)) "PUT") (fetches evs).

(** The calls to collaborators: everything but the diagnostic log lines. *)
Definition collaboratorCalls (evs : list Event) : list Event :=
  filter (fun e => match e with EvLog _ => false | _ => true end) evs.

(** The outcome of the cache lookup as [getCachedResponse] reads it. *)
Definition lookupHits (env : Env) (key : string) : bool :=
  match fetch env (cacheLookupRequest key) (Some cacheLookupOverride) with
  | Ok r => (status r =? 200)%Z
  | Throw _ => false
  end.

(** ** The four ways a request ends

    Which branch the handler takes is decided by two answers of the
    platform: the cache lookup and, on a miss, the S3 request. *)

Inductive Outcome : Type :=
| Hit (cached : Response)
| OriginFailure (s3Response : Response)
| OriginSuccess (s3Response : Response)
| Fault (message : string).

Definition outcome (env : Env) (request : Request) : Outcome :=
  let path := pathname (req_url request) in
  let origin :=
    match fetch env (s3Request path) None with
    | Ok r => if ok r then OriginSuccess r else OriginFailure r
    | Throw message => Fault message
    end in
  match fetch env (cacheLookupRequest (cacheKey path))
          (Some cacheLookupOverride) with
  | Ok c => if (status c =? 200)%Z then Hit c else origin
  | Throw _ => origin
  end.

Definition responseFor (o : Outcome) : Response :=
  match o with
  | Hit cached => cached
  | OriginFailure _ => new_Response "Not Found" 404
  | OriginSuccess r => r
  | Fault _ => new_Response "Internal Server Error" 500
  end.

Definition cacheStatusFor (o : Outcome) : string :=
  match o with
  | Hit _ => "HIT"
  | OriginFailure _ | OriginSuccess _ => "MISS"
  | Fault _ => "ERROR"
  end.

Definition eventTypeFor (o : Outcome) : string :=
  match o with
  | Hit _ => "cache_hit"
  | OriginFailure _ => "s3_error"
  | OriginSuccess _ => "success"
  | Fault _ => "error"
  end.

Definition errorFor (o : Outcome) : Js.Value :=
  match o with
  | Hit _ | OriginSuccess _ => Js.Undefined
  | OriginFailure r =>
      Js.Str ("S3 fetch failed with status: " ++ Js.numToString (status r))
  | Fault message => Js.Str message
  end.

Definition s3ResponseHeadersFor (o : Outcome) : Js.Value :=
  match o with
  | Hit _ | Fault _ => Js.Null
  | OriginFailure r | OriginSuccess r => Js.Object (extractResponseHeaders r)
  end.

Definition fetchesFor (request : Request) (o : Outcome)
  : list (FetchRequest * option CacheOverride) :=
  let path := pathname (req_url request) in
  let lookup :=
    (cacheLookupRequest (cacheKey path), Some cacheLookupOverride) in
  let origin := (s3Request path, None) in
  match o with
  | Hit _ => [lookup]
  | OriginFailure _ | Fault _ => [lookup; origin]
  | OriginSuccess r =>
      [lookup; origin;
       (cacheWriteRequest (cacheKey path) r, Some cacheWriteOverride)]
  end.


(** ** Platforms to compare and to run

    [answerLookup env key answer] is the platform [env] except that the
    cache lookup of [key] is answered with [answer]. *)

Definition FetchRequest_eq_dec (a b : FetchRequest) : {a = b} + {a <> b}.
Proof.
  repeat decide equality.
Defined.

Definition answerLookup (env : Env) (key : string) (answer : Result Response)
  : Env :=
  {| fetch := fun q o =>
       if FetchRequest_eq_dec q (cacheLookupRequest key) then answer
       else fetch env q o;
     bigquery_log := bigquery_log env;
     clock := clock env;
     toISOString := toISOString env;
     JSON_stringify := JSON_stringify env |}.

Definition quote : string := String (ascii_of_nat 34) EmptyString.

(** A rendering of values without escapes, enough for the sample runs. *)
Fixpoint sampleStringify (v : Js.Value) : string :=
  match v with
  | Js.Undefined => "undefined"
  | Js.Null => "null"
  | Js.Str s => quote ++ s ++ quote
  | Js.Num z => Js.numToString z
  | Js.Object props =>
      "{" ++
      (fix members (ps : list (string * Js.Value)) : string :=
         match ps with
         | [] => EmptyString
         | (k, x) :: rest =>
             (quote ++ k ++ quote ++ ":" ++ sampleStringify x
              ++ match rest with [] => EmptyString | _ => "," end
              ++ members rest)%string
         end) props
      ++ "}"
  end.

(** A sample platform: [lookup], [origin] and [write] are the answers to the
    cache lookup, to the S3 request and to the cache write; [sink] is the
    answer of the BigQuery endpoint. *)
Definition samplePlatform (lookup origin write : Result Response)
  (sink : Result unit) : Env :=
  {| fetch := fun q o =>
       if String.eqb (fr_method q) "PUT" then write
       else if String.prefix "https://cache/" (fr_url q) then lookup
       else origin;
     bigquery_log := fun _ => sink;
     clock := fun k => (1705314645123 + 15 * Z.of_nat k)%Z;
     toISOString := fun z => ("T+" ++ Js.numToString z ++ "ms")%string;
     JSON_stringify := sampleStringify |}.

Definition notCached : Response :=
  {| status := 404; resp_headers := []; body := EmptyString |}.

Definition logoPng : Response :=
  {| status := 200;
     resp_headers := [("content-type", "image/png"); ("etag", "abc")];
     body := "PNG-bytes" |}.

Definition accessDenied : Response :=
  {| status := 403;
     resp_headers := [("content-type", "application/xml")];
     body := "<Error><Code>AccessDenied</Code></Error>" |}.

Definition sampleRequest (path : string) (hs : Headers) : Request :=
  {| req_url := {| href := "https://example.com" ++ path;
                   hostname := "example.com";
                   pathname := path |};
     req_method := "GET";
     req_headers := hs |}.

Definition written : Response :=
  {| status := 200; resp_headers := []; body := EmptyString |}.

(** Sample platforms: all collaborators answer; the S3 request times out;
    S3 denies access; the cache write raises; the cache lookup raises. *)
Definition healthy : Env :=
  samplePlatform (Ok notCached) (Ok logoPng) (Ok written) (Ok tt).

Definition originTimesOut : Env :=
  samplePlatform (Ok notCached) (Throw "connection timed out") (Ok written)
    (Ok tt).

Definition originDenies : Env :=
  samplePlatform (Ok notCached) (Ok accessDenied) (Ok written) (Ok tt).

Definition cacheWriteFails : Env :=
  samplePlatform (Ok notCached) (Ok logoPng)
    (Throw "cache store unreachable") (Ok tt).

Definition cacheLookupFails : Env :=
  samplePlatform (Throw "cache store unreachable") (Ok logoPng) (Ok written)
    (Ok tt).

(** A header that gives no value to [||]: absent, or present and empty. *)
Definition noValue (v : Js.Value) : Prop :=
  v = Js.Null \/ v = Js.Str EmptyString.

(** Sample requests. *)
Definition bareRequest : Request := sampleRequest "/index.html" [].

Definition emptyForwardedFor : Request :=
  sampleRequest "/index.html"
    [("x-forwarded-for", EmptyString); ("x-real-ip", "10.0.0.1")].

Definition logoRequest : Request :=
  sampleRequest "/images/logo.png"
    [("user-agent", "curl/8.4.0"); ("fastly-client-ip", "192.168.1.100")].

(** ** Further platforms and descriptions of a record

    [withSink env sink] is the platform [env] with another BigQuery
    endpoint. *)
Definition withSink (env : Env) (sink : string -> Result unit) : Env :=
  {| fetch := fetch env;
     bigquery_log := sink;
     clock := clock env;
     toISOString := toISOString env;
     JSON_stringify := JSON_stringify env |}.

(** A sample platform whose cache holds the logo. *)
Definition cacheHolds : Env :=
  samplePlatform (Ok logoPng) (Throw "not asked") (Throw "not asked") (Ok tt).

(** A sample platform whose BigQuery endpoint raises. *)
Definition sinkDown : Env :=
  withSink healthy (fun _ => Throw "logging endpoint not found").


(** The outcome that ends in the [catch] block. *)
Definition isFault (o : Outcome) : bool :=
  match o with
  | Fault _ => true
  | _ => false
  end.

(** The property names of the record of an outcome, in order. *)
Definition schemaFor (o : Outcome) : list string :=
  [ "service"; "version"; "timestamp"; "ip"; "domain"; "path"; "method";
    "userAgent"; "referer"; "requestHeaders"; "url"; "cacheStatus";
    "responseTime"; "s3ResponseHeaders" ]
  ++ match o with
     | Hit _ | OriginSuccess _ => []
     | OriginFailure _ | Fault _ => [ "error" ]
     end
  ++ [ "eventType"; "requestHeadersJson" ]
  ++ match o with
     | Hit _ | Fault _ => []
     | OriginFailure _ | OriginSuccess _ => [ "s3ResponseHeadersJson" ]
     end.

(** ** Running the helpers

    Each helper that has its own [try]/[catch] returns normally whatever the
    platform answers; the equations below give its result and what it adds
    to the trace. *)

Section Runs.

Variable env : Env.

Lemma extractRequestInfo_run (request : Request) (path : string) (w : World) :
  extractRequestInfo env request path w
  = (Ok (requestInfoAt env request path (clock env (ticks w))), tick w).
Proof. reflexivity. Qed.

Lemma getCachedResponse_run (key : string) (w : World) :
  getCachedResponse env key w
  = match fetch env (cacheLookupRequest key) (Some cacheLookupOverride) with
    | Ok c =>
        (Ok (if (status c =? 200)%Z then Some c else None),
         emit (EvFetch (cacheLookupRequest key) (Some cacheLookupOverride)) w)
    | Throw message =>
        (Ok None,
         emit (EvLog ("Cache read error: " ++ message))
           (emit (EvFetch (cacheLookupRequest key) (Some cacheLookupOverride))
              w))
    end.
Proof.
  unfold getCachedResponse, tryCatch, bind, js_fetch, logger_log, ret.
  destruct (fetch env _ _) as [c | message]; [| reflexivity].
  destruct (status c =? 200)%Z; reflexivity.
Qed.

Lemma cacheResponse_run (key : string) (response : Response) (w : World) :
  cacheResponse env key response w
  = (Ok tt,
     emit
       (EvLog
          match fetch env (cacheWriteRequest key response)
                  (Some cacheWriteOverride) with
          | Ok _ =>
              "Response cached with key: " ++ key ++ ", TTL: "
              ++ Js.numToString CACHE_TTL ++ "s"
          | Throw message => "Cache write error: " ++ message
          end)
       (emit (EvFetch (cacheWriteRequest key response)
                (Some cacheWriteOverride)) w)).
Proof.
  unfold cacheResponse, tryCatch, bind, js_fetch, logger_log.
  destruct (fetch env _ _); reflexivity.
Qed.

Lemma logToBigQuery_run (logData : Js.Obj) (w : World) :
  logToBigQuery env logData w
  = (Ok tt,
     emit
       (EvLog
          match bigquery_log env
                  (JSON_stringify env (Js.Object (logEntryOf env logData))) with
          | Ok _ =>
              "BigQuery log entry: "
              ++ JSON_stringify env (Js.Object (logEntryOf env logData))
          | Throw message => "BigQuery logging error: " ++ message
          end)
       (emit (EvBigQuery (logEntryOf env logData)) w)).
Proof.
  unfold logToBigQuery, tryCatch, bind, bigqueryLogger_log, logger_log.
  destruct (bigquery_log env _); reflexivity.
Qed.

End Runs.

(** ** Running the handler symbolically *)

Ltac run_handler :=
  unfold response_of, events, run, handleRequest;
  unfold tryCatch, bind, Date_now, set_s3Response, get_s3Response,
    fetchFromS3, js_fetch, logger_log, ret;
  rewrite ?extractRequestInfo_run, ?getCachedResponse_run;
  cbv beta iota.

Ltac settle_world :=
  repeat
    (progress
       (rewrite ?extractRequestInfo_run, ?cacheResponse_run,
          ?logToBigQuery_run;
        cbv beta iota;
        cbn [ticks trace var_s3Response emit tick initial_world fst snd
             negb])).

Ltac ask_platform :=
  repeat match goal with
    | |- context [fetch ?e (cacheLookupRequest ?k) ?o] =>
        let E := fresh "Elookup" in
        destruct (fetch e (cacheLookupRequest k) o) eqn:E; cbv beta iota
    | |- context [fetch ?e (s3Request ?p) ?o] =>
        let E := fresh "Eorigin" in
        destruct (fetch e (s3Request p) o) eqn:E; cbv beta iota
    | |- context [(status ?r =? 200)%Z] =>
        let E := fresh "Ehit" in
        destruct (status r =? 200)%Z eqn:E; cbv beta iota
    | |- context [ok ?r] =>
        let E := fresh "Eok" in destruct (ok r) eqn:E; cbv beta iota
    end;
  settle_world.

(** Every run ends with a response, decided by [outcome], after the calls of
    [fetchesFor] and after handing one record to the BigQuery endpoint. *)
Lemma handleRequest_outcome (env : Env) (request : Request) :
  response_of env request = Ok (responseFor (outcome env request)) /\
  fetches (events env request)
  = fetchesFor request (outcome env request) /\
  exists entry,
    telemetry (events env request) = [entry] /\
    Js.get entry "cacheStatus"
    = Js.Str (cacheStatusFor (outcome env request)) /\
    Js.get entry "eventType"
    = Js.Str (eventTypeFor (outcome env request)) /\
    Js.get entry "error" = errorFor (outcome env request) /\
    Js.get entry "s3ResponseHeaders"
    = s3ResponseHeadersFor (outcome env request).
Proof.
  unfold outcome, fetchesFor. run_handler. ask_platform.
  all: split; [reflexivity | split; [reflexivity |]].
  all: eexists; repeat split; reflexivity.
Qed.

(** What [outcome] says about the answers of the platform. *)
Lemma outcome_answers (env : Env) (request : Request) :
  let path := pathname (req_url request) in
  match outcome env request with
  | Hit c =>
      fetch env (cacheLookupRequest (cacheKey path))
        (Some cacheLookupOverride) = Ok c /\
      status c = 200%Z
  | OriginFailure r =>
      lookupHits env (cacheKey path) = false /\
      fetch env (s3Request path) None = Ok r /\ ok r = false
  | OriginSuccess r =>
      lookupHits env (cacheKey path) = false /\
      fetch env (s3Request path) None = Ok r /\ ok r = true
  | Fault message =>
      lookupHits env (cacheKey path) = false /\
      fetch env (s3Request path) None = Throw message
  end.
Proof.
  unfold outcome, lookupHits. cbv zeta.
  destruct (fetch env (cacheLookupRequest _) _) as [c | m] eqn:Elookup.
  - destruct (status c =? 200)%Z eqn:Ehit.
    + split; [reflexivity | now apply Z.eqb_eq].
    + destruct (fetch env (s3Request _) None) as [r | m'];
        [destruct (ok r) eqn:Eok |]; auto.
  - destruct (fetch env (s3Request _) None) as [r | m'];
      [destruct (ok r) eqn:Eok |]; auto.
Qed.

(** On a miss (the lookup raised, or answered with a status other than 200)
    the outcome is decided by the S3 request alone. *)
Lemma outcome_miss (env : Env) (request : Request) :
  lookupHits env (cacheKey (pathname (req_url request))) = false ->
  outcome env request
  = match fetch env (s3Request (pathname (req_url request))) None with
    | Ok r => if ok r then OriginSuccess r else OriginFailure r
    | Throw message => Fault message
    end.
Proof.
  unfold lookupHits, outcome. cbv zeta.
  destruct (fetch env (cacheLookupRequest _) _) as [c | message];
    [| reflexivity].
  intros ->. reflexivity.
Qed.

(** ** Strings *)

Lemma substring_all (s : string) : String.substring 0 (String.length s) s = s.
Proof.
  induction s as [| c s IH]; [reflexivity |].
  cbn [String.length String.substring]. now rewrite IH.
Qed.

Lemma slice_1 (c : ascii) (s : string) : Js.slice (String c s) 1 = s.
Proof.
  unfold Js.slice. cbn [String.length String.substring Nat.sub].
  rewrite Nat.sub_0_r. apply substring_all.
Qed.

Lemma append_inj_l (p s t : string) : (p ++ s = p ++ t)%string -> s = t.
Proof.
  induction p as [| c p IH]; cbn [String.append]; [trivial |].
  intros H. injection H as H. auto.
Qed.

Lemma cons_neq_self (c : ascii) (s : string) : s <> String c s.
Proof.
  intros H. apply (f_equal String.length) in H. cbn in H. lia.
Qed.

Lemma startsWith_slash (s : string) :
  Js.startsWith (String "/" s) "/" = true.
Proof.
  unfold Js.startsWith. cbn. now destruct s.
Qed.

(** ** Objects and headers *)

Lemma get_set_other (o : Js.Obj) (k k' : string) (v : Js.Value) :
  k' <> k -> Js.get (Js.set o k' v) k = Js.get o k.
Proof.
  intros Hne. induction o as [| [k0 v0] o IH]; cbn [Js.set Js.get].
  - apply String.eqb_neq in Hne. now rewrite Hne.
  - destruct (String.eqb k0 k') eqn:E0; cbn [Js.get].
    + apply String.eqb_eq in E0. subst k0.
      apply String.eqb_neq in Hne. now rewrite Hne.
    + now rewrite IH.
Qed.

Lemma headers_get_Null (hs : Headers) (name : string) :
  headers_get hs name = Js.Null ->
  forall k v, In (k, v) hs -> k <> Js.toLowerCase name.
Proof.
  induction hs as [| [k0 v0] hs IH]; cbn [headers_get In]; [tauto |].
  destruct (String.eqb k0 (Js.toLowerCase name)) eqn:E; [discriminate |].
  intros Hrest k v [Heq | Hin].
  - injection Heq as <- <-. now apply String.eqb_neq.
  - now apply (IH Hrest k v).
Qed.

Lemma headersObject_absent (hs : Headers) (k : string) :
  (forall k' v, In (k', v) hs -> k' <> k) ->
  forall acc,
    Js.get (fold_left (fun o kv => Js.set o (fst kv) (Js.Str (snd kv))) hs acc)
      k
    = Js.get acc k.
Proof.
  induction hs as [| [k0 v0] hs IH]; intros Hne acc; cbn [fold_left fst snd];
    [reflexivity |].
  rewrite IH.
  - apply get_set_other. apply (Hne k0 v0). now left.
  - intros k' v Hin. apply (Hne k' v). now right.
Qed.

Lemma or_noValue (a b : Js.Value) : noValue a -> Js.or a b = b.
Proof. intros [-> | ->]; reflexivity. Qed.

Lemma or_value (v : string) (b : Js.Value) :
  v <> EmptyString -> Js.or (Js.Str v) b = Js.Str v.
Proof.
  intros Hne. unfold Js.or, Js.truthy.
  apply String.eqb_neq in Hne. now rewrite Hne.
Qed.

(** ** The cache key and the object key *)

(** C8.  The cache key of a path [P] is the string "s3-object:" followed by
    [P] itself, leading slash included; the handler looks the cache up under
    exactly that key; and two paths have the same key only if they are the
    same path. *)
Theorem C8_cacheKey_literal_injective :
  (forall P, cacheKey P = ("s3-object:" ++ P)%string) /\
  (forall rest, cacheKey (String "/" rest) = ("s3-object:/" ++ rest)%string) /\
  (forall env request,
     exists more,
       fetches (events env request)
       = (cacheLookupRequest
            ("s3-object:" ++ pathname (req_url request))%string,
          Some cacheLookupOverride) :: more) /\
  (forall P Q, cacheKey P = cacheKey Q <-> P = Q).
Proof.
  split; [reflexivity |]. split; [reflexivity |]. split.
  - intros env request.
    destruct (handleRequest_outcome env request) as (_ & -> & _).
    unfold fetchesFor. destruct (outcome env request); eexists; reflexivity.
  - intros P Q. split; [| now intros ->].
    unfold cacheKey. apply append_inj_l.
Qed.

(** C10.  [fetchFromS3] removes one leading slash and no more, so a path [p]
    that does not begin with a slash and the path "/" ++ p are fetched from
    the same S3 URL with the same request, although they are different paths
    with different cache keys. *)
Theorem C10_objectKey_not_injective (p : string) :
  Js.startsWith p "/" = false ->
  (forall q, objectKey ("/" ++ q) = q) /\
  objectKey p = p /\
  s3Url p = s3Url ("/" ++ p) /\
  (forall env w, fetchFromS3 env p w = fetchFromS3 env ("/" ++ p) w) /\
  p <> ("/" ++ p)%string /\
  cacheKey p <> cacheKey ("/" ++ p).
Proof.
  intros Hp. cbn [String.append].
  assert (Hstrip : forall q, objectKey (String "/" q) = q).
  { intros q. unfold objectKey. rewrite startsWith_slash. apply slice_1. }
  assert (Hkeep : objectKey p = p).
  { unfold objectKey. now rewrite Hp. }
  assert (Hurl : s3Url p = s3Url (String "/" p)).
  { unfold s3Url. now rewrite Hstrip, Hkeep. }
  repeat split; trivial.
  - intros env w. unfold fetchFromS3, s3Request. now rewrite Hurl.
  - apply cons_neq_self.
  - intros H. apply append_inj_l in H. now apply (cons_neq_self "/" p).
Qed.

Lemma C10_objectKey_not_injective_witness :
  s3Url "images/logo.png" = s3Url "/images/logo.png" /\
  cacheKey "images/logo.png" <> cacheKey "/images/logo.png".
Proof.
  destruct (C10_objectKey_not_injective "images/logo.png")
    as (_ & _ & Hurl & _ & _ & Hkey); [reflexivity |].
  split; [exact Hurl | exact Hkey].
Defined.

(** ** The request context *)

(** C4, as the code has it.  [extractRequestInfo] returns an object for
    every request and never throws; its only effect is one reading of the
    clock.  A missing header shows as follows: [referer] is [null],
    [userAgent] and [ip] are the string "unknown", and the header mapping
    has no property of that name. *)
Theorem C4_extractRequestInfo_total
  (env : Env) (request : Request) (path : string) (w : World) :
  exists info,
    extractRequestInfo env request path w = (Ok info, tick w) /\
    (headers_get (req_headers request) "referer" = Js.Null ->
     Js.get info "referer" = Js.Null) /\
    (headers_get (req_headers request) "user-agent" = Js.Null ->
     Js.get info "userAgent" = Js.Str "unknown") /\
    (headers_get (req_headers request) "fastly-client-ip" = Js.Null ->
     headers_get (req_headers request) "x-forwarded-for" = Js.Null ->
     headers_get (req_headers request) "x-real-ip" = Js.Null ->
     Js.get info "ip" = Js.Str "unknown") /\
    (forall name,
       headers_get (req_headers request) name = Js.Null ->
       exists mapping,
         Js.get info "requestHeaders" = Js.Object mapping /\
         Js.get mapping (Js.toLowerCase name) = Js.Undefined).
Proof.
  eexists. split; [apply extractRequestInfo_run |].
  unfold requestInfoAt. cbn [Js.get String.eqb Ascii.eqb Bool.eqb].
  repeat split.
  - now intros ->.
  - now intros ->.
  - unfold clientIP. now intros -> -> ->.
  - intros name Hnone. eexists. split; [reflexivity |].
    unfold headersObject. rewrite headersObject_absent; [reflexivity |].
    now apply headers_get_Null.
Qed.

Lemma C4_extractRequestInfo_total_witness :
  exists info,
    extractRequestInfo healthy bareRequest "/index.html" initial_world
    = (Ok info, tick initial_world) /\
    Js.get info "referer" = Js.Null /\
    Js.get info "userAgent" = Js.Str "unknown" /\
    Js.get info "ip" = Js.Str "unknown".
Proof.
  destruct
    (C4_extractRequestInfo_total healthy bareRequest "/index.html"
       initial_world)
    as (info & Hrun & Hreferer & Hagent & Hip & _).
  exists info. split; [exact Hrun |].
  split; [apply Hreferer; reflexivity |].
  split; [apply Hagent; reflexivity |].
  apply Hip; reflexivity.
Defined.

(** C4 as stated fails: a request without a user-agent header gets the
    [userAgent] "unknown", which is neither [null] nor absent. *)
Lemma C4_counterexample :
  headers_get (req_headers bareRequest) "user-agent" = Js.Null /\
  exists info,
    fst (extractRequestInfo healthy bareRequest "/index.html" initial_world)
    = Ok info /\
    Js.get info "userAgent" = Js.Str "unknown" /\
    Js.get info "userAgent" <> Js.Null /\
    Js.get info "userAgent" <> Js.Undefined.
Proof.
  split; [reflexivity |].
  eexists. split; [reflexivity |].
  repeat split; discriminate.
Qed.

(** C9, as the code has it.  The client address is the value of the first of
    fastly-client-ip, x-forwarded-for and x-real-ip that is present with a
    value that is not empty, taken as it is, and "unknown" when none is. *)
Theorem C9_clientIP_first_nonempty
  (env : Env) (request : Request) (path : string) (w : World) :
  exists info,
    extractRequestInfo env request path w = (Ok info, tick w) /\
    (forall v,
       headers_get (req_headers request) "fastly-client-ip" = Js.Str v ->
       v <> EmptyString ->
       Js.get info "ip" = Js.Str v) /\
    (forall v,
       noValue (headers_get (req_headers request) "fastly-client-ip") ->
       headers_get (req_headers request) "x-forwarded-for" = Js.Str v ->
       v <> EmptyString ->
       Js.get info "ip" = Js.Str v) /\
    (forall v,
       noValue (headers_get (req_headers request) "fastly-client-ip") ->
       noValue (headers_get (req_headers request) "x-forwarded-for") ->
       headers_get (req_headers request) "x-real-ip" = Js.Str v ->
       v <> EmptyString ->
       Js.get info "ip" = Js.Str v) /\
    (noValue (headers_get (req_headers request) "fastly-client-ip") ->
     noValue (headers_get (req_headers request) "x-forwarded-for") ->
     noValue (headers_get (req_headers request) "x-real-ip") ->
     Js.get info "ip" = Js.Str "unknown").
Proof.
  eexists. split; [apply extractRequestInfo_run |].
  unfold requestInfoAt. cbn [Js.get String.eqb Ascii.eqb Bool.eqb].
  unfold clientIP. repeat split.
  - intros v -> Hv. now rewrite !or_value.
  - intros v H1 -> Hv. rewrite (or_noValue _ _ H1). now rewrite !or_value.
  - intros v H1 H2 -> Hv.
    rewrite (or_noValue _ _ H1), (or_noValue _ _ H2). now apply or_value.
  - intros H1 H2 H3.
    now rewrite (or_noValue _ _ H1), (or_noValue _ _ H2), (or_noValue _ _ H3).
Qed.

Lemma C9_clientIP_first_nonempty_witness :
  exists info,
    extractRequestInfo healthy emptyForwardedFor "/index.html" initial_world
    = (Ok info, tick initial_world) /\
    Js.get info "ip" = Js.Str "10.0.0.1".
Proof.
  destruct
    (C9_clientIP_first_nonempty healthy emptyForwardedFor "/index.html"
       initial_world)
    as (info & Hrun & _ & _ & Hreal & _).
  exists info. split; [exact Hrun |].
  apply Hreal.
  - left. reflexivity.
  - right. reflexivity.
  - reflexivity.
  - discriminate.
Defined.

(** C9 as stated fails: the x-forwarded-for header is present (with an empty
    value) and no fastly-client-ip header is, yet the recorded address is
    the value of x-real-ip, not the value of x-forwarded-for. *)
Lemma C9_counterexample :
  headers_get (req_headers emptyForwardedFor) "fastly-client-ip" = Js.Null /\
  headers_get (req_headers emptyForwardedFor) "x-forwarded-for"
  = Js.Str EmptyString /\
  exists info,
    fst (extractRequestInfo healthy emptyForwardedFor "/index.html"
           initial_world)
    = Ok info /\
    Js.get info "ip" = Js.Str "10.0.0.1" /\
    Js.get info "ip" <> Js.Str EmptyString.
Proof.
  split; [reflexivity |]. split; [reflexivity |].
  eexists. split; [reflexivity |].
  split; [reflexivity | discriminate].
Qed.

(** ** The handler: responses and telemetry *)

(** C2.  Whatever the platform answers, the handler returns a response (its
    promise is never rejected) and hands exactly one record to the BigQuery
    endpoint; this includes the runs that end in the [catch] block. *)
Theorem C2_one_response_one_record (env : Env) (request : Request) :
  exists response entry,
    response_of env request = Ok response /\
    telemetry (events env request) = [entry] /\
    List.length (telemetry (events env request)) = 1.
Proof.
  destruct (handleRequest_outcome env request)
    as (Hresponse & _ & entry & Htelemetry & _).
  exists (responseFor (outcome env request)), entry.
  rewrite Htelemetry. repeat split. exact Hresponse.
Qed.

(** C1, as the code has it.  When the S3 request raises, the error reaches
    the [catch] block of the handler: the response is the fixed 500 with
    body "Internal Server Error", not the 404 of an S3 failure status;
    the one record has cacheStatus ERROR and eventType error and carries the
    message of the error; nothing is written to the cache. *)
Theorem C1_origin_fault_is_500
  (env : Env) (request : Request) (message : string) :
  lookupHits env (cacheKey (pathname (req_url request))) = false ->
  fetch env (s3Request (pathname (req_url request))) None = Throw message ->
  response_of env request = Ok (new_Response "Internal Server Error" 500) /\
  response_of env request <> Ok (new_Response "Not Found" 404) /\
  cacheWrites (events env request) = [] /\
  exists entry,
    telemetry (events env request) = [entry] /\
    Js.get entry "cacheStatus" = Js.Str "ERROR" /\
    Js.get entry "eventType" = Js.Str "error" /\
    Js.get entry "error" = Js.Str message /\
    Js.get entry "s3ResponseHeaders" = Js.Null.
Proof.
  intros Hmiss Hfault.
  destruct (handleRequest_outcome env request)
    as (Hresponse & Hfetches & entry & Htelemetry & Hfields).
  rewrite (outcome_miss env request Hmiss), Hfault in *.
  cbn [responseFor cacheStatusFor eventTypeFor errorFor s3ResponseHeadersFor
       fetchesFor] in *.
  rewrite Hresponse. split; [reflexivity |]. split; [discriminate |].
  split.
  - unfold cacheWrites. rewrite Hfetches. reflexivity.
  - exists entry. split; [exact Htelemetry | exact Hfields].
Qed.

Lemma C1_origin_fault_is_500_witness :
  response_of originTimesOut logoRequest
  = Ok (new_Response "Internal Server Error" 500).
Proof.
  apply (C1_origin_fault_is_500 originTimesOut logoRequest
           "connection timed out"); reflexivity.
Defined.

(** C1 as stated fails: the cache misses and the S3 request raises, and the
    response is the 500, not the 404, with eventType error in the record. *)
Lemma C1_counterexample :
  lookupHits originTimesOut (cacheKey "/images/logo.png") = false /\
  fetch originTimesOut (s3Request "/images/logo.png") None
  = Throw "connection timed out" /\
  response_of originTimesOut logoRequest
  = Ok {| status := 500;
          resp_headers := [("content-type", "text/plain;charset=UTF-8")];
          body := "Internal Server Error" |} /\
  response_of originTimesOut logoRequest <> Ok (new_Response "Not Found" 404) /\
  exists entry,
    telemetry (events originTimesOut logoRequest) = [entry] /\
    Js.get entry "eventType" = Js.Str "error" /\
    Js.get entry "eventType" <> Js.Str "origin_error".
Proof.
  split; [reflexivity |]. split; [reflexivity |]. split; [reflexivity |].
  split; [vm_compute; discriminate |].
  eexists. split; [vm_compute; reflexivity |].
  split; [reflexivity | discriminate].
Qed.

(** C3, as the code has it.  In the record of a run, cacheStatus is HIT
    exactly when eventType is cache_hit, and ERROR exactly when eventType is
    error; cacheStatus is MISS exactly when S3 answered, with eventType
    success for a 2xx answer and s3_error for any other answer.  The code
    names the event s3_error; it never writes origin_error. *)
Theorem C3_cacheStatus_eventType_paired
  (env : Env) (request : Request) (entry : Js.Obj) :
  In entry (telemetry (events env request)) ->
  (Js.get entry "cacheStatus" = Js.Str "HIT"
   <-> Js.get entry "eventType" = Js.Str "cache_hit") /\
  (Js.get entry "cacheStatus" = Js.Str "ERROR"
   <-> Js.get entry "eventType" = Js.Str "error") /\
  (Js.get entry "cacheStatus" = Js.Str "MISS"
   <-> exists r,
         fetch env (s3Request (pathname (req_url request))) None = Ok r /\
         lookupHits env (cacheKey (pathname (req_url request))) = false /\
         Js.get entry "eventType"
         = Js.Str (if ok r then "success" else "s3_error")) /\
  (Js.get entry "cacheStatus" = Js.Str "HIT" \/
   Js.get entry "cacheStatus" = Js.Str "MISS" \/
   Js.get entry "cacheStatus" = Js.Str "ERROR") /\
  Js.get entry "eventType" <> Js.Str "origin_error".
Proof.
  intros Hin.
  destruct (handleRequest_outcome env request)
    as (_ & _ & entry' & Htelemetry & Hstatus & Hevent & _).
  rewrite Htelemetry in Hin. destruct Hin as [<- | []].
  rewrite Hstatus, Hevent.
  pose proof (outcome_answers env request) as Hanswers. cbv zeta in Hanswers.
  destruct (outcome env request) as [c | r | r | message];
    cbn [cacheStatusFor eventTypeFor].
  - destruct Hanswers as (Hlookup & Hc).
    repeat split; try discriminate; auto.
    intros (r & _ & Hmiss & _). unfold lookupHits in Hmiss.
    rewrite Hlookup in Hmiss. apply Z.eqb_neq in Hmiss. contradiction.
  - destruct Hanswers as (Hmiss & Horigin & Hok).
    repeat split; try discriminate; auto.
    intros _. exists r. now rewrite Hok.
  - destruct Hanswers as (Hmiss & Horigin & Hok).
    repeat split; try discriminate; auto.
    intros _. exists r. now rewrite Hok.
  - destruct Hanswers as (Hmiss & Horigin).
    repeat split; try discriminate; auto.
    intros (r & Hr & _). rewrite Horigin in Hr. discriminate.
Qed.

Lemma C3_cacheStatus_eventType_paired_witness :
  exists entry,
    In entry (telemetry (events originDenies logoRequest)) /\
    Js.get entry "eventType" <> Js.Str "origin_error".
Proof.
  eexists. split; [left; reflexivity |].
  eapply (C3_cacheStatus_eventType_paired originDenies logoRequest).
  left. vm_compute. reflexivity.
Defined.

(** C3 as stated fails on the name of the event: the cache misses, S3
    answers 403, and the record has cacheStatus MISS with eventType
    s3_error, not origin_error. *)
Lemma C3_counterexample :
  lookupHits originDenies (cacheKey "/images/logo.png") = false /\
  fetch originDenies (s3Request "/images/logo.png") None = Ok accessDenied /\
  ok accessDenied = false /\
  exists entry,
    telemetry (events originDenies logoRequest) = [entry] /\
    Js.get entry "cacheStatus" = Js.Str "MISS" /\
    Js.get entry "eventType" = Js.Str "s3_error" /\
    Js.get entry "eventType" <> Js.Str "origin_error".
Proof.
  split; [reflexivity |]. split; [reflexivity |]. split; [reflexivity |].
  eexists. split; [vm_compute; reflexivity |].
  split; [reflexivity |]. split; [reflexivity | discriminate].
Qed.

(** C5.  When the cache lookup misses and S3 answers with a status of 400
    or more, the handler calls [fetch] for the lookup and for S3 only, so
    nothing is written to the cache, and the response is the 404 with body
    "Not Found". *)
Theorem C5_origin_failure_is_404
  (env : Env) (request : Request) (r : Response) :
  lookupHits env (cacheKey (pathname (req_url request))) = false ->
  fetch env (s3Request (pathname (req_url request))) None = Ok r ->
  (400 <= status r)%Z ->
  cacheWrites (events env request) = [] /\
  fetches (events env request)
  = [ (cacheLookupRequest (cacheKey (pathname (req_url request))),
       Some cacheLookupOverride);
      (s3Request (pathname (req_url request)), None) ] /\
  exists response,
    response_of env request = Ok response /\
    response = new_Response "Not Found" 404 /\
    status response = 404%Z /\
    body response = "Not Found".
Proof.
  intros Hmiss Horigin Hstatus.
  assert (Hok : ok r = false).
  { unfold ok. apply andb_false_iff. right. apply Z.leb_gt. lia. }
  destruct (handleRequest_outcome env request)
    as (Hresponse & Hfetches & _).
  rewrite (outcome_miss env request Hmiss), Horigin, Hok in *.
  cbn [responseFor fetchesFor] in *.
  split; [unfold cacheWrites; rewrite Hfetches; reflexivity |].
  split; [exact Hfetches |].
  eexists. split; [exact Hresponse |]. repeat split.
Qed.

Lemma C5_origin_failure_is_404_witness :
  cacheWrites (events originDenies logoRequest) = [].
Proof.
  apply (C5_origin_failure_is_404 originDenies logoRequest accessDenied);
    [reflexivity | reflexivity | vm_compute; discriminate].
Defined.

(** C7.  When the cache lookup misses and S3 answers with a 2xx response,
    the handler returns that response, with its status, headers and body,
    on a platform where the cache write raises as on one where it
    succeeds. *)
Theorem C7_cache_write_failure_keeps_response
  (failing working : Env) (request : Request) (r stored : Response)
  (message : string) :
  let path := pathname (req_url request) in
  lookupHits failing (cacheKey path) = false ->
  lookupHits working (cacheKey path) = false ->
  fetch failing (s3Request path) None = Ok r ->
  fetch working (s3Request path) None = Ok r ->
  ok r = true ->
  fetch failing (cacheWriteRequest (cacheKey path) r) (Some cacheWriteOverride)
  = Throw message ->
  fetch working (cacheWriteRequest (cacheKey path) r) (Some cacheWriteOverride)
  = Ok stored ->
  response_of failing request = Ok r /\
  response_of failing request = response_of working request /\
  In (cacheWriteRequest (cacheKey path) r, Some cacheWriteOverride)
    (fetches (events failing request)).
Proof.
  intros path Hmiss1 Hmiss2 Horigin1 Horigin2 Hok _ _.
  destruct (handleRequest_outcome failing request) as (Hfailing & Hcalls & _).
  destruct (handleRequest_outcome working request) as (Hworking & _).
  rewrite (outcome_miss failing request Hmiss1) in Hfailing, Hcalls.
  rewrite (outcome_miss working request Hmiss2) in Hworking.
  fold path in Hfailing, Hworking, Hcalls.
  rewrite Horigin1, Hok in Hfailing, Hcalls.
  rewrite Horigin2, Hok in Hworking.
  cbn [responseFor] in *.
  rewrite Hfailing, Hworking, Hcalls. repeat split.
  unfold fetchesFor. cbn [In]. auto.
Qed.

Lemma C7_cache_write_failure_keeps_response_witness :
  response_of cacheWriteFails logoRequest = Ok logoPng /\
  response_of cacheWriteFails logoRequest = response_of healthy logoRequest.
Proof.
  destruct
    (C7_cache_write_failure_keeps_response cacheWriteFails healthy logoRequest
       logoPng written "cache store unreachable")
    as (Hresponse & Hsame & _); try reflexivity.
  split; [exact Hresponse | exact Hsame].
Defined.

(** ** A cache lookup that raises *)

Section Lookup.

Variables (env : Env) (key : string) (answer : Result Response).

Lemma fetch_answerLookup_lookup (o : option CacheOverride) :
  fetch (answerLookup env key answer) (cacheLookupRequest key) o = answer.
Proof.
  cbn [fetch answerLookup].
  destruct (FetchRequest_eq_dec _ _) as [_ | Hne]; [reflexivity |].
  now contradiction Hne.
Qed.

Lemma fetch_answerLookup_origin (path : string) (o : option CacheOverride) :
  fetch (answerLookup env key answer) (s3Request path) o
  = fetch env (s3Request path) o.
Proof.
  cbn [fetch answerLookup].
  destruct (FetchRequest_eq_dec _ _) as [Heq | _]; [| reflexivity].
  apply (f_equal fr_backend) in Heq. discriminate.
Qed.

Lemma fetch_answerLookup_write
  (key' : string) (r : Response) (o : option CacheOverride) :
  fetch (answerLookup env key answer) (cacheWriteRequest key' r) o
  = fetch env (cacheWriteRequest key' r) o.
Proof.
  cbn [fetch answerLookup].
  destruct (FetchRequest_eq_dec _ _) as [Heq | _]; [| reflexivity].
  apply (f_equal fr_method) in Heq. discriminate.
Qed.

End Lookup.

(** C6.  When the cache lookup raises, [getCachedResponse] returns [null]
    and does not throw, and the handler goes on as on the platform that
    differs only in answering the lookup with a response that is not a 200
    (the key is not cached): the same response, and the same calls to S3, to
    the cache and to the BigQuery endpoint, with the same record. *)
Theorem C6_lookup_failure_is_a_miss
  (env : Env) (request : Request) (message : string) (absent : Response) :
  let key := cacheKey (pathname (req_url request)) in
  fetch env (cacheLookupRequest key) (Some cacheLookupOverride)
  = Throw message ->
  status absent <> 200%Z ->
  (forall w, fst (getCachedResponse env key w) = Ok None) /\
  response_of env request
  = response_of (answerLookup env key (Ok absent)) request /\
  collaboratorCalls (events env request)
  = collaboratorCalls (events (answerLookup env key (Ok absent)) request) /\
  (response_of env request = Ok (new_Response "Internal Server Error" 500) ->
   exists fault,
     fetch env (s3Request (pathname (req_url request))) None = Throw fault).
Proof.
  intros key Hraise Habsent.
  apply Z.eqb_neq in Habsent.
  split; [| split; [| split]].
  - intros w. rewrite getCachedResponse_run, Hraise. reflexivity.
  - run_handler. fold key.
    rewrite fetch_answerLookup_lookup, Hraise. cbv beta iota.
    rewrite Habsent, fetch_answerLookup_origin.
    ask_platform; rewrite ?fetch_answerLookup_write; reflexivity.
  - run_handler. fold key.
    rewrite fetch_answerLookup_lookup, Hraise. cbv beta iota.
    rewrite Habsent, fetch_answerLookup_origin.
    ask_platform; rewrite ?fetch_answerLookup_write; reflexivity.
  - destruct (handleRequest_outcome env request) as (-> & _).
    rewrite outcome_miss by (unfold lookupHits; fold key; now rewrite Hraise).
    destruct (fetch env (s3Request _) None) as [r | fault];
      [| intros _; now exists fault].
    destruct (ok r) eqn:Hok; cbn [responseFor]; intros Heq;
      [| discriminate].
    injection Heq as ->. discriminate.
Qed.

Lemma C6_lookup_failure_is_a_miss_witness :
  response_of cacheLookupFails logoRequest
  = response_of
      (answerLookup cacheLookupFails (cacheKey "/images/logo.png")
         (Ok notCached))
      logoRequest.
Proof.
  apply (C6_lookup_failure_is_a_miss cacheLookupFails logoRequest
           "cache store unreachable" notCached);
    [reflexivity | discriminate].
Defined.

(** * Further properties of the code *)

(** ** The helpers with a [try]/[catch] of their own *)

(** X1.  [getCachedResponse] never throws, and it returns a response exactly
    when the lookup answered with status 200: a lookup that raises, and an
    answer with any other status, give [null]. *)
Theorem X1_getCachedResponse_only_200
  (env : Env) (key : string) (w : World) :
  exists found,
    fst (getCachedResponse env key w) = Ok found /\
    ticks (snd (getCachedResponse env key w)) = ticks w /\
    fetches (trace (snd (getCachedResponse env key w)))
    = (cacheLookupRequest key, Some cacheLookupOverride) :: fetches (trace w)
    /\
    forall c,
      found = Some c <->
      fetch env (cacheLookupRequest key) (Some cacheLookupOverride) = Ok c /\
      status c = 200%Z.
Proof.
  rewrite getCachedResponse_run.
  destruct (fetch env _ _) as [c | message] eqn:Elookup.
  - destruct (status c =? 200)%Z eqn:Ehit; eexists;
      (split; [reflexivity |]); (split; [reflexivity |]);
      (split; [reflexivity |]); intros c'; split.
    + intros Hc. injection Hc as <-. split; [reflexivity |].
      now apply Z.eqb_eq.
    + intros (Hc & _). now injection Hc as <-.
    + discriminate.
    + intros (Hc & Hstatus). injection Hc as <-.
      apply Z.eqb_neq in Ehit. contradiction.
  - eexists. split; [reflexivity |]. split; [reflexivity |].
    split; [reflexivity |]. intros c. split; [discriminate |].
    intros (Hc & _). discriminate.
Qed.

(** X2.  [cacheResponse] never throws, whatever [fetch] does.  It makes one
    call of [fetch]: a PUT to the cache URL of the key, with the body and the
    headers of the response, a TTL of 800 seconds and no
    stale-while-revalidate; it reads no clock and leaves [s3Response] as it
    is. *)
Theorem X2_cacheResponse_one_put
  (env : Env) (key : string) (response : Response) (w : World) :
  exists put,
    fst (cacheResponse env key response w) = Ok tt /\
    fetches (trace (snd (cacheResponse env key response w)))
    = (put, Some cacheWriteOverride) :: fetches (trace w) /\
    fr_url put = ("https://cache/" ++ key)%string /\
    fr_method put = "PUT" /\
    fr_body put = Some (body response) /\
    fr_headers put = resp_headers response /\
    co_ttl cacheWriteOverride = Some 800%Z /\
    co_swr cacheWriteOverride = Some 0%Z /\
    ticks (snd (cacheResponse env key response w)) = ticks w /\
    var_s3Response (snd (cacheResponse env key response w))
    = var_s3Response w.
Proof.
  rewrite cacheResponse_run. eexists. repeat split.
Qed.

(** X3.  [logToBigQuery] never throws, for any log data and whatever the
    endpoint does.  It calls the endpoint once, with the entry built from the
    log data, and writes one diagnostic line, which reports the error when
    the endpoint raised. *)
Theorem X3_logToBigQuery_never_throws
  (env : Env) (logData : Js.Obj) (w : World) :
  exists line,
    logToBigQuery env logData w
    = (Ok tt,
       emit (EvLog line) (emit (EvBigQuery (logEntryOf env logData)) w)) /\
    telemetry (trace (snd (logToBigQuery env logData w)))
    = logEntryOf env logData :: telemetry (trace w) /\
    forall message,
      bigquery_log env
        (JSON_stringify env (Js.Object (logEntryOf env logData)))
      = Throw message ->
      line = ("BigQuery logging error: " ++ message)%string.
Proof.
  rewrite logToBigQuery_run. eexists. split; [reflexivity |].
  split; [reflexivity |].
  intros message ->. reflexivity.
Qed.

Lemma X3_logToBigQuery_never_throws_witness :
  exists line,
    fst (logToBigQuery sinkDown [("eventType", Js.Str "success")]
           initial_world) = Ok tt /\
    line = "BigQuery logging error: logging endpoint not found".
Proof.
  destruct
    (X3_logToBigQuery_never_throws sinkDown [("eventType", Js.Str "success")]
       initial_world)
    as (line & Hrun & _ & Hline).
  exists line. split; [now rewrite Hrun |].
  apply Hline. reflexivity.
Defined.

(** ** The handler, path by path *)

(** X4.  On a cache hit (the lookup answers with status 200) the handler
    returns the cached response as it is and asks nothing else of the
    platform: no S3 request and no cache write.  The record has cacheStatus
    HIT, eventType cache_hit, [s3ResponseHeaders] [null] and no [error]. *)
Theorem X4_hit_returns_cached (env : Env) (request : Request) (c : Response) :
  fetch env (cacheLookupRequest (cacheKey (pathname (req_url request))))
    (Some cacheLookupOverride) = Ok c ->
  status c = 200%Z ->
  response_of env request = Ok c /\
  fetches (events env request)
  = [ (cacheLookupRequest (cacheKey (pathname (req_url request))),
       Some cacheLookupOverride) ] /\
  cacheWrites (events env request) = [] /\
  exists entry,
    telemetry (events env request) = [entry] /\
    Js.get entry "cacheStatus" = Js.Str "HIT" /\
    Js.get entry "eventType" = Js.Str "cache_hit" /\
    Js.get entry "error" = Js.Undefined /\
    Js.get entry "s3ResponseHeaders" = Js.Null.
Proof.
  intros Hlookup Hstatus.
  destruct (handleRequest_outcome env request)
    as (Hresponse & Hfetches & entry & Htelemetry & Hfields).
  assert (Hhit : outcome env request = Hit c).
  { unfold outcome. cbv zeta. now rewrite Hlookup, Hstatus. }
  rewrite Hhit in *.
  cbn [responseFor cacheStatusFor eventTypeFor errorFor s3ResponseHeadersFor
       fetchesFor] in *.
  split; [exact Hresponse |]. split; [exact Hfetches |].
  split; [unfold cacheWrites; rewrite Hfetches; reflexivity |].
  exists entry. split; [exact Htelemetry | exact Hfields].
Qed.

Lemma X4_hit_returns_cached_witness :
  response_of cacheHolds logoRequest = Ok logoPng /\
  cacheWrites (events cacheHolds logoRequest) = [].
Proof.
  destruct (X4_hit_returns_cached cacheHolds logoRequest logoPng)
    as (Hresponse & _ & Hwrites & _); try reflexivity.
  split; [exact Hresponse | exact Hwrites].
Defined.

(** X5.  On a miss with a 2xx answer from S3 the handler calls [fetch] three
    times, in this order: the lookup, the S3 request, and one cache write.
    The write goes to the URL of the lookup, carries the body and the headers
    of the S3 response, and asks for a TTL of 800 seconds.  The response is
    the S3 response, and the record has cacheStatus MISS, eventType success,
    the S3 headers and no [error]. *)
Theorem X5_success_fetches_then_caches
  (env : Env) (request : Request) (r : Response) :
  lookupHits env (cacheKey (pathname (req_url request))) = false ->
  fetch env (s3Request (pathname (req_url request))) None = Ok r ->
  ok r = true ->
  response_of env request = Ok r /\
  (exists put,
     fetches (events env request)
     = [ (cacheLookupRequest (cacheKey (pathname (req_url request))),
          Some cacheLookupOverride);
         (s3Request (pathname (req_url request)), None);
         (put, Some cacheWriteOverride) ] /\
     cacheWrites (events env request) = [ (put, Some cacheWriteOverride) ] /\
     fr_url put
     = fr_url (cacheLookupRequest (cacheKey (pathname (req_url request)))) /\
     fr_method put = "PUT" /\
     fr_body put = Some (body r) /\
     fr_headers put = resp_headers r) /\
  exists entry,
    telemetry (events env request) = [entry] /\
    Js.get entry "cacheStatus" = Js.Str "MISS" /\
    Js.get entry "eventType" = Js.Str "success" /\
    Js.get entry "error" = Js.Undefined /\
    Js.get entry "s3ResponseHeaders" = Js.Object (extractResponseHeaders r).
Proof.
  intros Hmiss Horigin Hok.
  destruct (handleRequest_outcome env request)
    as (Hresponse & Hfetches & entry & Htelemetry & Hfields).
  rewrite (outcome_miss env request Hmiss), Horigin, Hok in *.
  cbn [responseFor cacheStatusFor eventTypeFor errorFor s3ResponseHeadersFor
       fetchesFor] in *.
  split; [exact Hresponse |]. split.
  - eexists. split; [exact Hfetches |].
    split; [unfold cacheWrites; rewrite Hfetches; reflexivity |].
    repeat split.
  - exists entry. split; [exact Htelemetry | exact Hfields].
Qed.

Lemma X5_success_fetches_then_caches_witness :
  response_of healthy logoRequest = Ok logoPng /\
  List.length (cacheWrites (events healthy logoRequest)) = 1.
Proof.
  destruct (X5_success_fetches_then_caches healthy logoRequest logoPng)
    as (Hresponse & (put & _ & Hwrites & _) & _); try reflexivity.
  split; [exact Hresponse | now rewrite Hwrites].
Defined.

(** X6.  Whatever the platform answers, the response of the handler is one
    of three: a response that the cache or S3 returned with a status from
    200 to 299, the 404 with body "Not Found", or the 500 with body
    "Internal Server Error".  No other status leaves the handler; a 3xx, 4xx
    or 5xx answer of S3 is never passed on. *)
Theorem X6_responses_are_2xx_404_500 (env : Env) (request : Request) :
  exists response,
    response_of env request = Ok response /\
    ((200 <= status response <= 299)%Z /\
     (fetch env (cacheLookupRequest (cacheKey (pathname (req_url request))))
        (Some cacheLookupOverride) = Ok response \/
      fetch env (s3Request (pathname (req_url request))) None = Ok response)
     \/ response = new_Response "Not Found" 404
     \/ response = new_Response "Internal Server Error" 500).
Proof.
  destruct (handleRequest_outcome env request) as (Hresponse & _).
  pose proof (outcome_answers env request) as Hanswers. cbv zeta in Hanswers.
  exists (responseFor (outcome env request)). split; [exact Hresponse |].
  destruct (outcome env request) as [c | r | r | message]; cbn [responseFor].
  - destruct Hanswers as (Hlookup & Hc). left. split; [lia | now left].
  - right. now left.
  - destruct Hanswers as (_ & Horigin & Hok). left. split; [| now right].
    unfold ok in Hok. apply andb_true_iff in Hok. destruct Hok as (Hlo & Hhi).
    apply Z.leb_le in Hlo, Hhi. lia.
  - right. now right.
Qed.

(** X7.  The handler never caches a failure.  It writes to the cache at most
    once, and only after the lookup missed and S3 answered with a 2xx
    response; what it writes is that response, under the cache key of the
    path. *)
Theorem X7_only_2xx_is_cached
  (env : Env) (request : Request)
  (q : FetchRequest) (o : option CacheOverride) :
  In (q, o) (cacheWrites (events env request)) ->
  (exists r,
     lookupHits env (cacheKey (pathname (req_url request))) = false /\
     fetch env (s3Request (pathname (req_url request))) None = Ok r /\
     ok r = true /\
     q = cacheWriteRequest (cacheKey (pathname (req_url request))) r /\
     o = Some cacheWriteOverride) /\
  cacheWrites (events env request) = [(q, o)].
Proof.
  destruct (handleRequest_outcome env request) as (_ & Hfetches & _).
  pose proof (outcome_answers env request) as Hanswers. cbv zeta in Hanswers.
  unfold cacheWrites. rewrite Hfetches.
  destruct (outcome env request) as [c | r | r | message];
    cbn [fetchesFor filter fst fr_method cacheLookupRequest new_Request
         s3Request cacheWriteRequest String.eqb Ascii.eqb Bool.eqb In];
    try contradiction.
  intros [Heq | []]. injection Heq as <- <-.
  destruct Hanswers as (Hmiss & Horigin & Hok).
  split; [| reflexivity]. exists r. auto.
Qed.

Lemma X7_only_2xx_is_cached_witness :
  exists r,
    fetch healthy (s3Request "/images/logo.png") None = Ok r /\ ok r = true.
Proof.
  destruct
    (X7_only_2xx_is_cached healthy logoRequest
       (cacheWriteRequest (cacheKey "/images/logo.png") logoPng)
       (Some cacheWriteOverride))
    as ((r & _ & Horigin & Hok & _) & _).
  - vm_compute. left. reflexivity.
  - exists r. split; [exact Horigin | exact Hok].
Defined.

(** ** The record of a run *)

(** X8.  A BigQuery endpoint that raises changes nothing but the diagnostic
    log: with any other endpoint the handler returns the same response and
    makes the same calls of [fetch] with the same record. *)
Theorem X8_endpoint_failure_is_swallowed
  (env : Env) (sink : string -> Result unit) (request : Request) :
  response_of (withSink env sink) request = response_of env request /\
  collaboratorCalls (events (withSink env sink) request)
  = collaboratorCalls (events env request).
Proof.
  split; run_handler; cbn [fetch withSink]; ask_platform; reflexivity.
Qed.

(** X9.  The record of a run has the properties of [schemaFor], in that
    order: the service and version constants, the request context, the
    outcome fields and the two JSON renderings.  [error] is there exactly in
    the s3_error and error records, and [s3ResponseHeadersJson] exactly when
    S3 answered. *)
Theorem X9_record_schema (env : Env) (request : Request) :
  exists entry,
    telemetry (events env request) = [entry] /\
    map fst entry = schemaFor (outcome env request).
Proof.
  unfold outcome. run_handler. ask_platform.
  all: eexists; split; reflexivity.
Qed.

(** X10.  On every path, the [catch] block included, the record carries the
    request context as [extractRequestInfo] gives it (none of the outcome
    fields overwrites it), the two constants, and the JSON rendering of the
    request headers. *)
Theorem X10_record_carries_context (env : Env) (request : Request) :
  exists entry,
    telemetry (events env request) = [entry] /\
    Js.get entry "service" = Js.Str "motorcasino-edge-app" /\
    Js.get entry "version" = Js.Str "1.0.0" /\
    Js.get entry "requestHeadersJson"
    = Js.Str (JSON_stringify env
                (Js.Object (headersObject (req_headers request)))) /\
    forall now k,
      In k [ "ip"; "domain"; "path"; "method"; "userAgent"; "referer";
             "requestHeaders"; "url" ] ->
      Js.get entry k
      = Js.get (requestInfoAt env request (pathname (req_url request)) now) k.
Proof.
  run_handler. ask_platform.
  all: eexists; split; [reflexivity |].
  all: split; [reflexivity |]; split; [reflexivity |]; split; [reflexivity |].
  all: intros now k Hk; cbn [In] in Hk.
  all: repeat (destruct Hk as [<- | Hk]; [reflexivity |]); contradiction.
Qed.

Lemma X10_record_carries_context_witness :
  exists entry,
    telemetry (events originTimesOut logoRequest) = [entry] /\
    Js.get entry "ip" = Js.Str "192.168.1.100".
Proof.
  destruct (X10_record_carries_context originTimesOut logoRequest)
    as (entry & Htelemetry & _ & _ & _ & Hcontext).
  exists entry. split; [exact Htelemetry |].
  rewrite (Hcontext 0%Z "ip"); [reflexivity |].
  cbn [In]. left. reflexivity.
Defined.

(** X11.  The times of the record.  [responseTime] is the clock at the
    moment the record is built minus the clock at the start of the handler,
    so it is not negative when the clock does not run backwards.  The
    [timestamp] is the clock as [extractRequestInfo] read it: after the
    start, and on the [catch] path after the error. *)
Theorem X11_record_times (env : Env) (request : Request) :
  exists entry elapsed,
    telemetry (events env request) = [entry] /\
    Js.get entry "responseTime" = Js.Num elapsed /\
    elapsed
    = (clock env (if isFault (outcome env request) then 3 else 2)
       - clock env 0)%Z /\
    Js.get entry "timestamp"
    = Js.Str (toISOString env
                (clock env (if isFault (outcome env request) then 2 else 1)))
    /\
    ((forall i j, i <= j -> (clock env i <= clock env j)%Z) ->
     (0 <= elapsed)%Z).
Proof.
  unfold outcome. run_handler. ask_platform.
  all: eexists; eexists; split; [reflexivity |].
  all: split; [reflexivity |]; split; [reflexivity |]; split; [reflexivity |].
  all: intros Hclock; cbn [isFault].
  all: match goal with
       | |- (0 <= clock _ ?k - clock _ 0)%Z =>
           pose proof (Hclock 0 k (Nat.le_0_l k)); lia
       end.
Qed.

Lemma X11_record_times_witness :
  exists entry elapsed,
    telemetry (events healthy logoRequest) = [entry] /\
    Js.get entry "responseTime" = Js.Num elapsed /\
    (0 <= elapsed)%Z.
Proof.
  destruct (X11_record_times healthy logoRequest)
    as (entry & elapsed & Htelemetry & Htime & _ & _ & Hpositive).
  exists entry, elapsed. split; [exact Htelemetry |].
  split; [exact Htime |].
  apply Hpositive. intros i j Hij. cbn [clock healthy samplePlatform]. lia.
Defined.

(** ** Header objects *)






(** ** The entry of [logToBigQuery] *)









(** ** The S3 URL of a request path *)




(** ** Empty header values in the request context *)

(** X15.  In the object of [extractRequestInfo], [userAgent] is the
    user-agent header when it has a value that is not empty and "unknown"
    otherwise; [referer] is the referer header when it has a value that is
    not empty and [null] otherwise.  A header sent with an empty value counts
    as missing.  The [path] is the path given, and the [url] and [domain] are
    those of the request. *)
Theorem X15_userAgent_referer_defaults
  (env : Env) (request : Request) (path : string) (w : World) :
  exists info,
    fst (extractRequestInfo env request path w) = Ok info /\
    (forall v,
       headers_get (req_headers request) "user-agent" = Js.Str v ->
       v <> EmptyString ->
       Js.get info "userAgent" = Js.Str v) /\
    (noValue (headers_get (req_headers request) "user-agent") ->
     Js.get info "userAgent" = Js.Str "unknown") /\
    (forall v,
       headers_get (req_headers request) "referer" = Js.Str v ->
       v <> EmptyString ->
       Js.get info "referer" = Js.Str v) /\
    (noValue (headers_get (req_headers request) "referer") ->
     Js.get info "referer" = Js.Null) /\
    Js.get info "path" = Js.Str path /\
    Js.get info "url" = Js.Str (href (req_url request)) /\
    Js.get info "domain" = Js.Str (hostname (req_url request)) /\
    Js.get info "method" = Js.Str (req_method request).
Proof.
  rewrite extractRequestInfo_run. eexists. split; [reflexivity |].
  unfold requestInfoAt. cbn [Js.get String.eqb Ascii.eqb Bool.eqb].
  repeat split.
  - intros v -> Hv. now apply or_value.
  - intros Hnone. now apply or_noValue.
  - intros v -> Hv. now apply or_value.
  - intros Hnone. now apply or_noValue.
Qed.

Lemma X15_userAgent_referer_defaults_witness :
  exists info,
    fst (extractRequestInfo healthy
           (sampleRequest "/index.html" [("referer", EmptyString)])
           "/index.html" initial_world) = Ok info /\
    Js.get info "referer" = Js.Null.
Proof.
  destruct
    (X15_userAgent_referer_defaults healthy
       (sampleRequest "/index.html" [("referer", EmptyString)])
       "/index.html" initial_world)
    as (info & Hrun & _ & _ & _ & Hreferer & _).
  exists info. split; [exact Hrun |].
  apply Hreferer. right. reflexivity.
Defined.

(** ** The diagnostic log after a failed cache write *)

(** X16.  The success line of the handler does not depend on the cache
    write: when the write raises, the diagnostic log has the line of the
    write error and, after it, the line that says the response was fetched
    and cached. *)
Theorem X16_success_line_after_failed_write
  (env : Env) (request : Request) (r : Response) (message : string) :
  lookupHits env (cacheKey (pathname (req_url request))) = false ->
  fetch env (s3Request (pathname (req_url request))) None = Ok r ->
  ok r = true ->
  fetch env (cacheWriteRequest (cacheKey (pathname (req_url request))) r)
    (Some cacheWriteOverride) = Throw message ->
  exists before between after,
    events env request
    = before
      ++ EvLog ("Cache write error: " ++ message)
      :: between
      ++ EvLog ("Successfully fetched and cached response for path: "
                ++ pathname (req_url request))
      :: after.
Proof.
  intros Hmiss Horigin Hok Hwrite.
  revert Hmiss. unfold lookupHits. run_handler.
  rewrite Horigin.
  destruct (fetch env (cacheLookupRequest _) _) as [c | m]; cbv beta iota.
  - intros ->. cbv beta iota. rewrite Hok. settle_world.
    unfold clone. rewrite Hwrite. cbn [rev app].
    eexists [_; _; _; _; _], [], [_; _]. reflexivity.
  - intros _. rewrite Hok. settle_world.
    unfold clone. rewrite Hwrite. cbn [rev app].
    eexists [_; _; _; _; _; _], [], [_; _]. reflexivity.
Qed.

Lemma X16_success_line_after_failed_write_witness :
  exists before between after,
    events cacheWriteFails logoRequest
    = before
      ++ EvLog "Cache write error: cache store unreachable"
      :: between
      ++ EvLog
           "Successfully fetched and cached response for path: /images/logo.png"
      :: after.
Proof.
  apply (X16_success_line_after_failed_write cacheWriteFails logoRequest
           logoPng "cache store unreachable"); reflexivity.
Defined.
